(** * auth.py: the login and signup endpoints

    A shallow embedding of [src/auth.py].  The two Flask handlers are
    translated statement by statement into a state-and-exception monad over
    a model of the storage file [simulation.db]; the hashing library
    (flask_bcrypt) and the token library (flask_jwt_extended) are external
    to the repository and are taken as parameters. *)

From Stdlib Require Import Ascii String ZArith List Bool Lia.
Import ListNotations.
Open Scope string_scope.
Open Scope list_scope.

Set Warnings "-register-all".

(** ** Python values

    The values [request.get_json()] can produce.  JSON numbers are
    modelled by the integers. *)

Inductive value : Type :=
| VNone
| VBool (b : bool)
| VInt (n : Z)
| VStr (s : string)
| VList (l : list value)
| VDict (d : list (string * value)).

(** Exceptions that can leave a handler. *)
Inductive exn : Type :=
| BadRequest        (* werkzeug: the body is not parseable JSON *)
| AttributeError    (* [.get] on a value that is not a dict *)
| TypeError
| ValueError
| IntegrityError    (* sqlite3: a constraint failed *)
| InterfaceError    (* sqlite3: a parameter of an unsupported type *)
| OverflowError     (* sqlite3: an int outside 64 bits *)
| ProgrammingError  (* sqlite3: operation on a closed connection *)
| OperationalError. (* sqlite3: the database is locked *)

Inductive result (A : Type) : Type :=
| Ok (a : A)
| Raise (e : exn).
Arguments Ok {A} a.
Arguments Raise {A} e.

Definition exn_eqb (a b : exn) : bool :=
  match a, b with
  | BadRequest, BadRequest | AttributeError, AttributeError
  | TypeError, TypeError | ValueError, ValueError
  | IntegrityError, IntegrityError | InterfaceError, InterfaceError
  | OverflowError, OverflowError | ProgrammingError, ProgrammingError
  | OperationalError, OperationalError => true
  | _, _ => false
  end.

(** [d.get(key)] on the items of a dict: the bound value, or [None]. *)
Fixpoint dict_get (d : list (string * value)) (key : string) : value :=
  match d with
  | [] => VNone
  | (k, v) :: d' => if String.eqb k key then v else dict_get d' key
  end.

(** [data.get(key)]: only a dict has the attribute. *)
Definition py_get (data : value) (key : string) : result value :=
  match data with
  | VDict d => Ok (dict_get d key)
  | _ => Raise AttributeError
  end.

(** ** The request *)

Inductive http_method : Type := POST | OPTIONS.

Inductive payload : Type :=
| Malformed
| Json (v : value).

Record request : Type := { method : http_method; body : payload }.

(** [request.get_json()] *)
Definition get_json (r : request) : result value :=
  match body r with
  | Malformed => Raise BadRequest
  | Json v => Ok v
  end.

(** A response is the pair the handler returns: the jsonified body and
    the status code. *)
Definition response : Type := (value * nat)%type.

Definition jsonify (items : list (string * value)) : value := VDict items.

(** ** Storage *)

Inductive sqlval : Type :=
| SNull
| SInteger (n : Z)
| SText (s : string).

Record row : Type := { email : sqlval; password : string }.

Definition table : Type := list row.

(** The [=] of SQL: NULL equals nothing, an integer never equals a text. *)
Definition sql_eq (a b : sqlval) : bool :=
  match a, b with
  | SInteger x, SInteger y => Z.eqb x y
  | SText x, SText y => String.eqb x y
  | _, _ => false
  end.

(** How sqlite3 binds a Python value to a [?] placeholder. *)
Definition sqlite_bind (v : value) : result sqlval :=
  match v with
  | VNone => Ok SNull
  | VBool b => Ok (SInteger (if b then 1 else 0))
  | VInt n =>
      if (Z.leb (- 2 ^ 63) n && Z.ltb n (2 ^ 63))%bool
      then Ok (SInteger n) else Raise OverflowError
  | VStr s => Ok (SText s)
  | VList _ | VDict _ => Raise InterfaceError
  end.

(** A connection holds the rows of its open transaction. *)
Record connection : Type := { cid : nat; pending : table }.

(** The storage file and the connections opened on it.  [write_lock] is
    the connection, if any, whose transaction holds the write lock of the
    file: a connection takes it when it starts to write and keeps it until
    it commits or is closed. *)
Record world : Type := {
  users : table;
  conns : list connection;
  next_cid : nat;
  write_lock : option nat
}.

(** The write lock is held by a connection other than [c]. *)
Definition locked_for (c : nat) (l : option nat) : bool :=
  match l with
  | Some c' => negb (Nat.eqb c' c)
  | None => false
  end.

(** The lock once [c] has let go of it. *)
Definition release (c : nat) (l : option nat) : option nat :=
  match l with
  | Some c' => if Nat.eqb c' c then None else l
  | None => None
  end.

Definition find_conn (c : nat) (cs : list connection) : option connection :=
  find (fun x => Nat.eqb (cid x) c) cs.

Definition drop_conn (c : nat) (cs : list connection) : list connection :=
  filter (fun x => negb (Nat.eqb (cid x) c)) cs.

(** [SELECT password FROM users WHERE email = k] over table [t]. *)
Definition select_password (k : sqlval) (t : table) : list string :=
  map password (filter (fun r => sql_eq (email r) k) t).

(** Modelled from the spec: the schema [users(email UNIQUE, password)] is
    not in the repository; a row violates the constraint when its email
    equals, by the [=] of SQL, the email of a row already there. *)
Definition registered (k : sqlval) (t : table) : bool :=
  existsb (fun r => sql_eq (email r) k) t.

(** ** The handler monad: state and exceptions *)

Definition M (A : Type) : Type := world -> result A * world.

Definition ret {A} (a : A) : M A := fun w => (Ok a, w).

Definition raise {A} (e : exn) : M A := fun w => (Raise e, w).

Definition bind {A B} (m : M A) (k : A -> M B) : M B :=
  fun w =>
    match m w with
    | (Ok a, w') => k a w'
    | (Raise e, w') => (Raise e, w')
    end.

Definition lift {A} (r : result A) : M A := fun w => (r, w).

(** [try: m except E: h], for the exceptions selected by [catches]. *)
Definition try_except {A} (m : M A) (catches : exn -> bool) (h : M A) : M A :=
  fun w =>
    match m w with
    | (Raise e, w') => if catches e then h w' else (Raise e, w')
    | r => r
    end.

Notation "x <- m ;; k" := (bind m (fun x => k))
  (at level 61, m at next level, right associativity).
Notation "m ;;; k" := (bind m (fun _ => k))
  (at level 61, right associativity).

(** *** sqlite3 *)

(** [sqlite3.connect("simulation.db")] *)
Definition sqlite3_connect : M nat :=
  fun w =>
    (Ok (next_cid w),
     {| users := users w;
        conns := {| cid := next_cid w; pending := [] |} :: conns w;
        next_cid := S (next_cid w);
        write_lock := write_lock w |}).

(** [cursor.execute("SELECT password FROM users WHERE email = ?", (k,))]:
    the rows the cursor then holds. *)
Definition execute_select (c : nat) (param : value) : M (list string) :=
  fun w =>
    match find_conn c (conns w) with
    | None => (Raise ProgrammingError, w)
    | Some cn =>
        match sqlite_bind param with
        | Raise e => (Raise e, w)
        | Ok k => (Ok (select_password k (users w ++ pending cn)), w)
        end
    end.

(** [cursor.fetchone()] *)
Definition fetchone (rows : list string) : option string :=
  match rows with
  | [] => None
  | r :: _ => Some r
  end.

Definition set_pending (c : nat) (p : table) (cs : list connection)
  : list connection :=
  map (fun x => if Nat.eqb (cid x) c then {| cid := c; pending := p |} else x) cs.

(** [cursor.execute("INSERT INTO users (email, password) VALUES (?, ?)",
    (k, h))].  The parameters are bound first.  The statement then needs
    the write lock: when another connection holds it the database is
    locked; otherwise the connection takes the lock, and keeps it also
    when the constraint then fails.  A row that passes the constraint
    joins the open transaction. *)
Definition execute_insert (c : nat) (param : value) (h : string) : M unit :=
  fun w =>
    match find_conn c (conns w) with
    | None => (Raise ProgrammingError, w)
    | Some cn =>
        match sqlite_bind param with
        | Raise e => (Raise e, w)
        | Ok k =>
            if locked_for c (write_lock w)
            then (Raise OperationalError, w)
            else if registered k (users w ++ pending cn)
            then (Raise IntegrityError,
                  {| users := users w;
                     conns := conns w;
                     next_cid := next_cid w;
                     write_lock := Some c |})
            else (Ok tt,
                  {| users := users w;
                     conns := set_pending c
                                (pending cn ++ [{| email := k; password := h |}])
                                (conns w);
                     next_cid := next_cid w;
                     write_lock := Some c |})
        end
    end.

(** [conn.commit()]: the pending rows reach the table and the lock is
    let go. *)
Definition conn_commit (c : nat) : M unit :=
  fun w =>
    match find_conn c (conns w) with
    | None => (Raise ProgrammingError, w)
    | Some cn =>
        (Ok tt,
         {| users := users w ++ pending cn;
            conns := set_pending c [] (conns w);
            next_cid := next_cid w;
            write_lock := release c (write_lock w) |})
    end.

(** [conn.close()]: what was not committed is lost, the lock is let go. *)
Definition conn_close (c : nat) : M unit :=
  fun w =>
    (Ok tt,
     {| users := users w;
        conns := drop_conn c (conns w);
        next_cid := next_cid w;
        write_lock := release c (write_lock w) |}).

(** ** The external libraries *)

(** flask_bcrypt.  [generate_password_hash] stands for the call followed
    by [.decode('utf-8')]. *)
Class Bcrypt : Type := {
  generate_password_hash : value -> result string;
  check_password_hash : string -> value -> result bool
}.

(** flask_jwt_extended.  [get_jwt_identity] reads the identity of the
    token that the current request presents. *)
Class Jwt : Type := {
  create_access_token : value -> string;
  get_jwt_identity : string -> option value
}.

(** ** The handlers *)

Section Handlers.

Context {B : Bcrypt} {J : Jwt}.

Definition ok_body : value := jsonify [("status", VStr "ok")].

Definition invalid_credentials : value :=
  jsonify [("message", VStr "Invalid credentials")].

Definition token_body (token : string) : value :=
  jsonify [("access_token", VStr token)].

Definition user_created : value :=
  jsonify [("status", VStr "success"); ("message", VStr "User created")].

Definition user_exists : value :=
  jsonify [("status", VStr "error"); ("message", VStr "User already exists")].

Definition login (req : request) : M response :=
  match method req with
  | OPTIONS => ret (ok_body, 200)
  | POST =>
      data <- lift (get_json req) ;;
      username <- lift (py_get data "username") ;;
      password <- lift (py_get data "password") ;;
      conn <- sqlite3_connect ;;
      cursor <- execute_select conn username ;;
      let result := fetchone cursor in
      conn_close conn ;;;
      match result with
      | Some stored =>
          verified <- lift (check_password_hash stored password) ;;
          if verified
          then
            let token := create_access_token username in
            ret (token_body token, 200)
          else ret (invalid_credentials, 401)
      | None => ret (invalid_credentials, 401)
      end
  end.

Definition signup (req : request) : M response :=
  match method req with
  | OPTIONS => ret (ok_body, 200)
  | POST =>
      data <- lift (get_json req) ;;
      username <- lift (py_get data "username") ;;
      password <- lift (py_get data "password") ;;
      hashed_password <- lift (generate_password_hash password) ;;
      try_except
        (conn <- sqlite3_connect ;;
         execute_insert conn username hashed_password ;;;
         conn_commit conn ;;;
         conn_close conn ;;;
         ret (user_created, 201))
        (fun e => exn_eqb e IntegrityError)
        (ret (user_exists, 409))
  end.

(** [get_current_user_email()], for a request presenting [token]. *)
Definition get_current_user_email (token : string) : option value :=
  get_jwt_identity token.

End Handlers.

(** The dispatch of the blueprint's two routes, and a server that handles
    requests one after the other. *)
Inductive endpoint : Type := Login | Signup.

Definition handle {B : Bcrypt} {J : Jwt} (ep : endpoint) (req : request)
  : M response :=
  match ep with
  | Login => login req
  | Signup => signup req
  end.

Fixpoint serve {B : Bcrypt} {J : Jwt} (calls : list (endpoint * request))
  (w : world) : world :=
  match calls with
  | [] => w
  | (ep, req) :: rest => serve rest (snd (handle ep req w))
  end.

(** ** Vocabulary of the statements *)

Definition post (v : value) : request := {| method := POST; body := Json v |}.

Definition credentials (u p : string) : value :=
  VDict [("username", VStr u); ("password", VStr p)].

(** The status code of an outcome, when the handler returned. *)
Definition status (out : result response) : option nat :=
  match out with
  | Ok (_, code) => Some code
  | Raise _ => None
  end.

(** The token a response carries, if any. *)
Definition access_token (out : result response) : option string :=
  match out with
  | Ok (VDict d, _) =>
      match dict_get d "access_token" with
      | VStr t => Some t
      | _ => None
      end
  | _ => None
  end.

(** The hash stored for [k]: what [fetchone] yields after the SELECT. *)
Definition stored_hash (k : sqlval) (t : table) : option string :=
  fetchone (select_password k t).

(** The world once a handler has opened its connection. *)
Definition opened (w : world) : world := snd (sqlite3_connect w).

(** The world once that connection is closed again, the table being [t]. *)
Definition closed (t : table) (w : world) : world :=
  {| users := t;
     conns := drop_conn (next_cid w) (conns w);
     next_cid := S (next_cid w);
     write_lock := release (next_cid w) (write_lock w) |}.

(** The world once a handler has opened its connection and that
    connection has taken the write lock. *)
Definition holding (w : world) : world :=
  {| users := users w;
     conns := {| cid := next_cid w; pending := [] |} :: conns w;
     next_cid := S (next_cid w);
     write_lock := Some (next_cid w) |}.

(** The connection with identifier [c] is open in [w]. *)
Definition is_open (c : nat) (w : world) : bool :=
  match find_conn c (conns w) with
  | Some _ => true
  | None => false
  end.

(** Every identifier occurs in at most one row.  The comparison is the
    one of the constraint: a NULL email, the trace of a signup without a
    username, is no identifier and equals nothing. *)
Definition unique_emails (t : table) : Prop :=
  forall k, length (filter (fun r => sql_eq (email r) k) t) <= 1.

(** ** A hashing library and a token library to run the handlers with *)

Definition stub_bcrypt : Bcrypt :=
  {| generate_password_hash v :=
       match v with
       | VStr s => if String.eqb s "" then Raise ValueError else Ok ("$2b$" ++ s)%string
       | VNone => Raise ValueError
       | _ => Raise TypeError
       end;
     check_password_hash h v :=
       match v with
       | VStr s => Ok (String.eqb h ("$2b$" ++ s)%string)
       | _ => Raise TypeError
       end |}.

Definition stub_jwt : Jwt :=
  {| create_access_token v :=
       match v with
       | VStr s => ("jwt." ++ s)%string
       | _ => "jwt"
       end;
     get_jwt_identity t :=
       match t with
       | String "j"%char (String "w"%char (String "t"%char (String "."%char s))) => Some (VStr s)
       | _ => None
       end |}.

Definition empty_world : world :=
  {| users := []; conns := []; next_cid := 0; write_lock := None |}.

(** A world where alice is registered (with the stub hash of "wonderland"). *)
Definition alice_world : world :=
  {| users := [{| email := SText "alice@example.com";
                  password := "$2b$wonderland" |}];
     conns := [];
     next_cid := 0;
     write_lock := None |}.

(** ** Failures other than InvalidCredentials and DuplicateUser *)

(** Ways a POST can fail before or besides the two handled outcomes: the
    body does not parse, the body is not an object, the hashing or the
    verification call raises, sqlite3 refuses the parameter, or the
    database is locked. *)
Inductive generic_failure {B : Bcrypt} (w : world)
  : endpoint -> request -> exn -> Prop :=
| gf_body ep req e :
    get_json req = Raise e ->
    generic_failure w ep req e
| gf_not_object ep req v e :
    get_json req = Ok v ->
    py_get v "username" = Raise e ->
    generic_failure w ep req e
| gf_hash req d e :
    get_json req = Ok (VDict d) ->
    generate_password_hash (dict_get d "password") = Raise e ->
    generic_failure w Signup req e
| gf_bind_signup req d h e :
    get_json req = Ok (VDict d) ->
    generate_password_hash (dict_get d "password") = Ok h ->
    sqlite_bind (dict_get d "username") = Raise e ->
    generic_failure w Signup req e
| gf_locked req d h k :
    get_json req = Ok (VDict d) ->
    generate_password_hash (dict_get d "password") = Ok h ->
    sqlite_bind (dict_get d "username") = Ok k ->
    locked_for (next_cid w) (write_lock w) = true ->
    generic_failure w Signup req OperationalError
| gf_bind_login req d e :
    get_json req = Ok (VDict d) ->
    sqlite_bind (dict_get d "username") = Raise e ->
    generic_failure w Login req e
| gf_verify req d k h e :
    get_json req = Ok (VDict d) ->
    sqlite_bind (dict_get d "username") = Ok k ->
    stored_hash k (users w) = Some h ->
    check_password_hash h (dict_get d "password") = Raise e ->
    generic_failure w Login req e.

(** The identifier a request submits: [data.get('username')]. *)
Definition username_of (req : request) : value :=
  match body req with
  | Json (VDict d) => dict_get d "username"
  | _ => VNone
  end.

(** ** Requests used as examples *)

Definition alice_login : request :=
  post (credentials "alice@example.com" "wonderland").

Definition alice_wrong : request :=
  post (credentials "alice@example.com" "rabbit").

Definition bob_signup : request :=
  post (credentials "bob@example.com" "builder").

(** ** Vocabulary for runs of several requests *)

(** The answers the server gives to a sequence of requests, in order. *)
Fixpoint answers {B : Bcrypt} {J : Jwt} (calls : list (endpoint * request))
  (w : world) : list (result response) :=
  match calls with
  | [] => []
  | (ep, req) :: rest =>
      fst (handle ep req w) :: answers rest (snd (handle ep req w))
  end.

(** The answer is a 201. *)
Definition created (out : result response) : bool :=
  match status out with
  | Some code => Nat.eqb code 201
  | None => false
  end.

(** Connection numbers are handed out in increasing order: the open
    connections all have a number below the next one. *)
Definition fresh_ids (w : world) : Prop :=
  forall cn, In cn (conns w) -> cid cn < next_cid w.

(** No open connection holds a row that is not committed. *)
Definition all_committed (w : world) : Prop :=
  forall cn, In cn (conns w) -> pending cn = [].

(** The connection a handler running in [w] opens. *)
Definition own_conn (w : world) : connection :=
  {| cid := next_cid w; pending := [] |}.

(** A world like [alice_world] in which an earlier request has left a
    connection open: a login whose username sqlite3 refused, so that the
    connection holds no lock. *)
Definition alice_world_leaked : world :=
  {| users := users alice_world;
     conns := [{| cid := 0; pending := [] |}];
     next_cid := 1;
     write_lock := None |}.

(** A world where the identifier registered is the number 7 (with the
    stub hash of "seven"), and the login for it. *)
Definition seven_world : world :=
  {| users := [{| email := SInteger 7; password := "$2b$seven" |}];
     conns := [];
     next_cid := 0;
     write_lock := None |}.

Definition seven_login : request :=
  post (VDict [("username", VInt 7); ("password", VStr "seven")]).

(** The world a signup answered 409 leaves behind [alice_world]: its
    connection is open and holds the write lock. *)
Definition alice_world_locked : world :=
  {| users := users alice_world;
     conns := [{| cid := 0; pending := [] |}];
     next_cid := 1;
     write_lock := Some 0 |}.

(** ** Basic facts about the storage model *)

Lemma sql_eq_true (a b : sqlval) : sql_eq a b = true -> a = b.
Proof.
  destruct a, b; simpl; try discriminate.
  - intros H. apply Z.eqb_eq in H. now subst.
  - intros H. apply String.eqb_eq in H. now subst.
Qed.

Lemma sql_eq_refl (k : sqlval) : k <> SNull -> sql_eq k k = true.
Proof.
  destruct k; simpl; intros H.
  - congruence.
  - apply Z.eqb_refl.
  - apply String.eqb_refl.
Qed.

Lemma sqlite_bind_not_integrity (v : value) (e : exn) :
  sqlite_bind v = Raise e -> exn_eqb e IntegrityError = false.
Proof.
  destruct v; simpl; try discriminate.
  - destruct (_ && _)%bool; [discriminate|]. intros H; injection H as <-. reflexivity.
  - intros H; injection H as <-. reflexivity.
  - intros H; injection H as <-. reflexivity.
Qed.

Lemma find_conn_drop (c : nat) (cs : list connection) :
  find_conn c (drop_conn c cs) = None.
Proof.
  unfold find_conn, drop_conn.
  induction cs as [|x cs IH]; simpl; [reflexivity|].
  destruct (Nat.eqb (cid x) c) eqn:E; simpl; [exact IH|].
  now rewrite E.
Qed.

Lemma drop_conn_head (c : nat) (p : table) (cs : list connection) :
  drop_conn c ({| cid := c; pending := p |} :: cs) = drop_conn c cs.
Proof. unfold drop_conn. simpl. now rewrite Nat.eqb_refl. Qed.

Lemma release_own (c : nat) : release c (Some c) = None.
Proof. simpl. now rewrite Nat.eqb_refl. Qed.

Lemma release_unlocked (c : nat) (l : option nat) :
  locked_for c l = false -> release c l = None.
Proof.
  destruct l as [c'|]; simpl; [|reflexivity].
  now destruct (Nat.eqb c' c).
Qed.

Lemma drop_set_pending (c : nat) (p : table) (cs : list connection) :
  drop_conn c (set_pending c p cs) = drop_conn c cs.
Proof.
  unfold drop_conn, set_pending.
  induction cs as [|x cs IH]; simpl; [reflexivity|].
  destruct (Nat.eqb (cid x) c) eqn:E; simpl.
  - rewrite Nat.eqb_refl. simpl. exact IH.
  - rewrite E. simpl. now rewrite IH.
Qed.

Lemma registered_app (k : sqlval) (t1 t2 : table) :
  registered k (t1 ++ t2) = (registered k t1 || registered k t2)%bool.
Proof. unfold registered. apply existsb_app. Qed.

Lemma registered_filter (k : sqlval) (t : table) :
  registered k t = false -> filter (fun r => sql_eq (email r) k) t = [].
Proof.
  unfold registered.
  induction t as [|r t IH]; simpl; [reflexivity|].
  destruct (sql_eq (email r) k); simpl; [discriminate|exact IH].
Qed.

Lemma stored_hash_registered (k : sqlval) (t : table) :
  stored_hash k t = None <-> registered k t = false.
Proof.
  unfold stored_hash, select_password, registered.
  induction t as [|r t IH]; simpl; [tauto|].
  destruct (sql_eq (email r) k); simpl; [split; discriminate|exact IH].
Qed.

(** ** What a run of each handler amounts to *)

Section Runs.

Context {B : Bcrypt} {J : Jwt}.

Lemma login_options (b : payload) (w : world) :
  login {| method := OPTIONS; body := b |} w = (Ok (ok_body, 200), w).
Proof. reflexivity. Qed.

Lemma signup_options (b : payload) (w : world) :
  signup {| method := OPTIONS; body := b |} w = (Ok (ok_body, 200), w).
Proof. reflexivity. Qed.

Lemma login_malformed (w : world) :
  login {| method := POST; body := Malformed |} w = (Raise BadRequest, w).
Proof. reflexivity. Qed.

Lemma signup_malformed (w : world) :
  signup {| method := POST; body := Malformed |} w = (Raise BadRequest, w).
Proof. reflexivity. Qed.

Lemma login_not_dict (v : value) (w : world) :
  (forall d, v <> VDict d) -> login (post v) w = (Raise AttributeError, w).
Proof. intros H. destruct v; try reflexivity. now destruct (H d). Qed.

Lemma signup_not_dict (v : value) (w : world) :
  (forall d, v <> VDict d) -> signup (post v) w = (Raise AttributeError, w).
Proof. intros H. destruct v; try reflexivity. now destruct (H d). Qed.

(** A POST to /login with a JSON object. *)
Lemma login_dict (d : list (string * value)) (w : world) :
  login (post (VDict d)) w =
  match sqlite_bind (dict_get d "username") with
  | Raise e => (Raise e, opened w)
  | Ok k =>
      match stored_hash k (users w) with
      | None => (Ok (invalid_credentials, 401), closed (users w) w)
      | Some h =>
          match check_password_hash h (dict_get d "password") with
          | Raise e => (Raise e, closed (users w) w)
          | Ok true =>
              (Ok (token_body (create_access_token (dict_get d "username")), 200),
               closed (users w) w)
          | Ok false => (Ok (invalid_credentials, 401), closed (users w) w)
          end
      end
  end.
Proof.
  unfold login, post, bind, lift, ret, get_json, py_get, sqlite3_connect,
    execute_select, conn_close, find_conn, stored_hash, opened, closed,
    sqlite3_connect.
  cbn [method body find cid pending users conns next_cid fst snd].
  rewrite Nat.eqb_refl.
  cbn [users conns next_cid pending].
  rewrite app_nil_r.
  destruct (sqlite_bind (dict_get d "username")) as [k|e]; [|reflexivity].
  cbn [users conns next_cid].
  rewrite drop_conn_head.
  destruct (fetchone (select_password k (users w))) as [h|]; [|reflexivity].
  destruct (check_password_hash h (dict_get d "password")) as [[|]|e];
    reflexivity.
Qed.

(** A POST to /signup with a JSON object. *)
Lemma signup_dict (d : list (string * value)) (w : world) :
  signup (post (VDict d)) w =
  match generate_password_hash (dict_get d "password") with
  | Raise e => (Raise e, w)
  | Ok h =>
      match sqlite_bind (dict_get d "username") with
      | Raise e => (Raise e, opened w)
      | Ok k =>
          if locked_for (next_cid w) (write_lock w)
          then (Raise OperationalError, opened w)
          else if registered k (users w)
          then (Ok (user_exists, 409), holding w)
          else (Ok (user_created, 201),
                closed (users w ++ [{| email := k; password := h |}]) w)
      end
  end.
Proof.
  unfold signup, post, try_except, bind, lift, ret, get_json, py_get,
    sqlite3_connect, execute_insert, conn_commit, conn_close, find_conn,
    opened, closed, holding, sqlite3_connect.
  cbn [method body].
  destruct (generate_password_hash (dict_get d "password")) as [h|e];
    [|reflexivity].
  cbn [find cid pending users conns next_cid write_lock fst snd].
  rewrite Nat.eqb_refl.
  cbn [pending]. rewrite app_nil_r.
  destruct (sqlite_bind (dict_get d "username")) as [k|e] eqn:Ebind.
  - destruct (locked_for (next_cid w) (write_lock w)) eqn:Elock;
      [reflexivity|].
    destruct (registered k (users w)); [reflexivity|].
    cbn [users conns next_cid write_lock set_pending map cid find app].
    rewrite !Nat.eqb_refl.
    cbn [users conns next_cid write_lock set_pending map cid find pending app].
    rewrite ?Nat.eqb_refl.
    cbn [users conns next_cid write_lock pending app release].
    rewrite ?Nat.eqb_refl.
    rewrite (release_unlocked _ _ Elock).
    f_equal. f_equal.
    rewrite drop_conn_head.
    change (drop_conn (next_cid w)
              (set_pending (next_cid w) []
                 (set_pending (next_cid w)
                    [{| email := k; password := h |}] (conns w)))
            = drop_conn (next_cid w) (conns w)).
    now rewrite !drop_set_pending.
  - now rewrite (sqlite_bind_not_integrity _ _ Ebind).
Qed.

End Runs.

(** ** Effects of the handlers on the world *)

Section Effects.

Context {B : Bcrypt} {J : Jwt}.

(** Every request is an OPTIONS or a POST carrying a payload. *)
Lemma request_cases (req : request) :
  (exists b, req = {| method := OPTIONS; body := b |}) \/
  req = {| method := POST; body := Malformed |} \/
  (exists v, req = post v /\ forall d, v <> VDict d) \/
  (exists d, req = post (VDict d)).
Proof.
  destruct req as [[|] b].
  - destruct b as [|v]; [now right; left|].
    right; right.
    destruct v; try (left; eexists; split; [reflexivity|discriminate]).
    right. now exists d.
  - left. now exists b.
Qed.

Lemma login_users (req : request) (w : world) :
  users (snd (login req w)) = users w.
Proof.
  destruct (request_cases req) as [[b ->]|[->|[[v [-> Hv]]|[d ->]]]].
  - reflexivity.
  - reflexivity.
  - now rewrite login_not_dict.
  - rewrite login_dict.
    destruct (sqlite_bind _) as [k|e]; [|reflexivity].
    destruct (stored_hash _ _) as [h|]; [|reflexivity].
    destruct (check_password_hash _ _) as [[|]|e]; reflexivity.
Qed.

(** A signup leaves the table as it was or appends one row whose email
    no row had. *)
Lemma signup_users (req : request) (w : world) :
  users (snd (signup req w)) = users w \/
  exists k h, registered k (users w) = false /\
              users (snd (signup req w)) =
              users w ++ [{| email := k; password := h |}].
Proof.
  destruct (request_cases req) as [[b ->]|[->|[[v [-> Hv]]|[d ->]]]].
  - now left.
  - now left.
  - left. now rewrite signup_not_dict.
  - rewrite signup_dict.
    destruct (generate_password_hash _) as [h|e]; [|now left].
    destruct (sqlite_bind _) as [k|e]; [|now left].
    destruct (locked_for _ _); [now left|].
    destruct (registered k (users w)) eqn:E; [now left|].
    right. exists k, h. now split.
Qed.

Lemma unique_emails_snoc (t : table) (k : sqlval) (h : string) :
  unique_emails t -> registered k t = false ->
  unique_emails (t ++ [{| email := k; password := h |}]).
Proof.
  intros Hu Hk k'. rewrite filter_app, length_app. simpl.
  destruct (sql_eq k k') eqn:E; simpl.
  - apply sql_eq_true in E. subst k'.
    rewrite (registered_filter _ _ Hk). simpl. lia.
  - specialize (Hu k'). lia.
Qed.

Lemma handle_unique (ep : endpoint) (req : request) (w : world) :
  unique_emails (users w) -> unique_emails (users (snd (handle ep req w))).
Proof.
  intros Hu. destruct ep; simpl.
  - now rewrite login_users.
  - destruct (signup_users req w) as [->|(k & h & Hk & ->)]; [exact Hu|].
    now apply unique_emails_snoc.
Qed.

(** The connection a handler opens is the one numbered [next_cid w]. *)
Lemma is_open_opened (w : world) : is_open (next_cid w) (opened w) = true.
Proof. unfold is_open, opened, find_conn. simpl. now rewrite Nat.eqb_refl. Qed.

Lemma is_open_closed (t : table) (w : world) :
  is_open (next_cid w) (closed t w) = false.
Proof. unfold is_open, closed. simpl. now rewrite find_conn_drop. Qed.

(** /login closes its connection on both of its return statements. *)
Lemma login_returns_closed (v : value) (w : world) (r : response) :
  fst (login (post v) w) = Ok r ->
  next_cid (snd (login (post v) w)) = S (next_cid w) /\
  is_open (next_cid w) (snd (login (post v) w)) = false.
Proof.
  destruct v; try discriminate.
  rewrite login_dict.
  destruct (sqlite_bind _) as [k|e]; [|discriminate].
  destruct (stored_hash _ _) as [h|].
  - destruct (check_password_hash _ _) as [[|]|e]; try discriminate;
      intros _; split; try reflexivity; apply is_open_closed.
  - intros _; split; try reflexivity; apply is_open_closed.
Qed.

(** /signup closes its connection when it answers 201, and leaves it
    open when it answers 409. *)
Lemma signup_returns (v : value) (w : world) (r : response) :
  fst (signup (post v) w) = Ok r ->
  next_cid (snd (signup (post v) w)) = S (next_cid w) /\
  (snd r = 201 /\ is_open (next_cid w) (snd (signup (post v) w)) = false \/
   snd r = 409 /\ is_open (next_cid w) (snd (signup (post v) w)) = true).
Proof.
  destruct v; try discriminate.
  rewrite signup_dict.
  destruct (generate_password_hash _) as [h|e]; [|discriminate].
  destruct (sqlite_bind _) as [k|e]; [|discriminate].
  destruct (locked_for _ _); [discriminate|].
  destruct (registered k (users w)); intros H; injection H as <-.
  - split; [reflexivity|]. right. split; [reflexivity|]. apply is_open_opened.
  - split; [reflexivity|]. left. split; [reflexivity|]. apply is_open_closed.
Qed.

End Effects.

(** ** Login *)

Section Login.

Context {B : Bcrypt} {J : Jwt}.

(** C1 (as amended).  For every POST to /login whose body is a JSON
    object, whose username sqlite3 accepts as a parameter and whose
    verification call, when a row is found, returns rather than raises:
    the answer is 401 with the "Invalid credentials" message if and only
    if no row exists for the submitted identifier or the submitted secret
    does not verify against the row's stored hash; otherwise the answer is
    200 with an access token made for the submitted identifier. *)
Theorem login_post_outcome (d : list (string * value)) (w : world)
    (k : sqlval) :
  sqlite_bind (dict_get d "username") = Ok k ->
  (forall h, stored_hash k (users w) = Some h ->
     exists b, check_password_hash h (dict_get d "password") = Ok b) ->
  let out := fst (login (post (VDict d)) w) in
  let rejected :=
    registered k (users w) = false \/
    exists h, stored_hash k (users w) = Some h /\
              check_password_hash h (dict_get d "password") = Ok false in
  (status out = Some 401 <-> rejected) /\
  (rejected -> out = Ok (invalid_credentials, 401)) /\
  (~ rejected ->
     out = Ok (token_body (create_access_token (dict_get d "username")), 200)).
Proof.
  intros Hbind Hcheck out rejected. subst out rejected.
  rewrite login_dict, Hbind.
  destruct (stored_hash k (users w)) as [h|] eqn:Eh.
  - assert (Hreg : registered k (users w) <> false).
    { intros Hr. apply stored_hash_registered in Hr. congruence. }
    destruct (Hcheck h eq_refl) as [b Hb]. rewrite Hb.
    destruct b; simpl.
    + repeat split.
      * discriminate.
      * intros [Hr|(h' & Hh' & Hf)]; [contradiction|].
        injection Hh' as <-. congruence.
      * intros [Hr|(h' & Hh' & Hf)]; [contradiction|].
        injection Hh' as <-. congruence.
    + repeat split.
      * intros _. right. now exists h.
      * intros H. elim H. right. now exists h.
  - apply stored_hash_registered in Eh. simpl.
    repeat split.
    + intros _. now left.
    + intros H. elim H. now left.
Qed.

(** C9.  /login only reads: whatever the method, the body and the
    outcome, the users table after the call is the users table before. *)
Theorem login_reads_only (req : request) (w : world) :
  users (snd (login req w)) = users w.
Proof. apply login_users. Qed.

(** C6 (as amended).  Every token /login issues is the one made by
    [create_access_token] for the submitted username, so that
    [get_current_user_email] reads from it what the token library reads
    from a token made for that username.  A token is carried by the 200
    answer to a POST and by nothing else: no request that fails (a 401
    answer, or an error raised) is issued one. *)
Theorem login_token_identity (req : request) (w : world) :
  let out := fst (login req w) in
  (forall token, access_token out = Some token ->
     method req = POST /\ status out = Some 200 /\
     token = create_access_token (username_of req) /\
     get_current_user_email token
       = get_jwt_identity (create_access_token (username_of req))) /\
  (method req = POST -> status out = Some 200 ->
     exists token, access_token out = Some token) /\
  (status out <> Some 200 -> access_token out = None).
Proof.
  intros out. subst out.
  assert (Hno : forall (o : result response),
             (method req = POST -> status o <> Some 200) ->
             access_token o = None ->
             (forall token, access_token o = Some token ->
                method req = POST /\ status o = Some 200 /\
                token = create_access_token (username_of req) /\
                get_current_user_email token
                  = get_jwt_identity (create_access_token (username_of req))) /\
             (method req = POST -> status o = Some 200 ->
                exists token, access_token o = Some token) /\
             (status o <> Some 200 -> access_token o = None)).
  { intros o Hs Ht. split; [|split].
    - intros token Htok. congruence.
    - intros Hm H200. now destruct (Hs Hm).
    - intros _. exact Ht. }
  destruct (request_cases req) as [[b ->]|[->|[[v [-> Hv]]|[d ->]]]].
  - apply Hno; [discriminate|reflexivity].
  - apply Hno; [discriminate|reflexivity].
  - rewrite login_not_dict by exact Hv. apply Hno; [discriminate|reflexivity].
  - unfold username_of in *. cbn [body post] in *.
    rewrite login_dict.
    destruct (sqlite_bind _) as [k|e];
      [|apply Hno; [discriminate|reflexivity]].
    destruct (stored_hash _ _) as [h|];
      [|apply Hno; [discriminate|reflexivity]].
    destruct (check_password_hash _ _) as [[|]|e];
      try (apply Hno; [discriminate|reflexivity]).
    cbn [fst]. split; [|split].
    + intros token Htok. injection Htok as <-.
      split; [reflexivity|]. split; [reflexivity|]. split; reflexivity.
    + intros _ _. eexists. reflexivity.
    + intros H. now elim H.
Qed.

End Login.

(** C1, counterexample.  A POST to /login whose body does not parse gets
    neither 401 nor 200: [request.get_json()] raises.  So does a POST whose
    body is a JSON array ([data.get] raises), and one whose username is a
    JSON array (sqlite3 refuses the parameter). *)
Lemma login_post_malformed_body :
  let run r := fst (login (B := stub_bcrypt) (J := stub_jwt) r alice_world) in
  let out := run {| method := POST; body := Malformed |} in
  (out = Raise BadRequest /\ status out <> Some 401 /\ status out <> Some 200) /\
  run (post (VList [])) = Raise AttributeError /\
  run (post (VDict [("username", VList [VStr "alice@example.com"]);
                    ("password", VStr "wonderland")])) = Raise InterfaceError.
Proof. simpl. repeat split; discriminate. Qed.

Lemma login_post_outcome_witness :
  let d := [("username", VStr "alice@example.com");
            ("password", VStr "rabbit")] in
  let out := fst (login (B := stub_bcrypt) (J := stub_jwt)
                    (post (VDict d)) alice_world) in
  sqlite_bind (dict_get d "username") = Ok (SText "alice@example.com") /\
  status out = Some 401.
Proof.
  split; [reflexivity|].
  apply (login_post_outcome (B := stub_bcrypt) (J := stub_jwt)
           [("username", VStr "alice@example.com"); ("password", VStr "rabbit")]
           alice_world (SText "alice@example.com")).
  - reflexivity.
  - intros h _. eexists. reflexivity.
  - right. eexists. split; reflexivity.
Defined.

(** C6, counterexample.  The identifier registered is the number 7.  The
    login for it is answered 200 with a token, and the identity read from
    that token is not the username of the request: the token library
    reads none. *)
Lemma login_token_without_identity :
  let out := fst (login (B := stub_bcrypt) (J := stub_jwt)
                    seven_login seven_world) in
  status out = Some 200 /\
  access_token out = Some "jwt" /\
  get_current_user_email (J := stub_jwt) "jwt" = None /\
  get_current_user_email (J := stub_jwt) "jwt" <> Some (username_of seven_login).
Proof. simpl. repeat split. discriminate. Qed.

(** ** Signup *)

Section Signup.

Context {B : Bcrypt} {J : Jwt}.

(** C2 (as amended).  For every POST to /signup whose body is a JSON
    object, whose password the hashing call accepts and whose username
    sqlite3 accepts as a parameter, no connection holding the write lock:
    the answer is 409 if and only if a row with the submitted identifier
    exists already; otherwise the row is inserted and the answer is 201.
    In particular, after a signup that created the row, a second signup
    with the same identifier, whatever its secret, is answered 409. *)
Theorem signup_post_outcome (d : list (string * value)) (w : world)
    (k : sqlval) (h : string) :
  generate_password_hash (dict_get d "password") = Ok h ->
  sqlite_bind (dict_get d "username") = Ok k ->
  write_lock w = None ->
  let run := signup (post (VDict d)) w in
  (status (fst run) = Some 409 <-> registered k (users w) = true) /\
  (registered k (users w) = true -> fst run = Ok (user_exists, 409)) /\
  (registered k (users w) = false ->
     fst run = Ok (user_created, 201) /\
     users (snd run) = users w ++ [{| email := k; password := h |}]) /\
  (registered k (users w) = false -> k <> SNull ->
   forall d2 h2,
     dict_get d2 "username" = dict_get d "username" ->
     generate_password_hash (dict_get d2 "password") = Ok h2 ->
     fst (signup (post (VDict d2)) (snd run)) = Ok (user_exists, 409)).
Proof.
  intros Hhash Hbind Hlock run. subst run.
  rewrite signup_dict, Hhash, Hbind, Hlock. cbn [locked_for].
  destruct (registered k (users w)) eqn:Hreg.
  - split; [split; reflexivity|].
    split; [reflexivity|].
    split; discriminate.
  - split; [split; discriminate|].
    split; [discriminate|].
    split; [split; reflexivity|].
    intros _ Hk d2 h2 Hu Hh2.
    rewrite signup_dict, Hh2, Hu, Hbind.
    cbn [snd closed users next_cid write_lock].
    rewrite Hlock. cbn [release locked_for].
    rewrite registered_app. simpl. rewrite (sql_eq_refl k Hk).
    now rewrite orb_true_r.
Qed.

(** C3 (as amended).  For every identifier that no row of the users table
    has and every secret that the hashing library hashes and verifies
    against its own hash, no connection holding the write lock: the signup
    is answered 201, and the login that follows with the same identifier
    and secret is answered 200 with a token. *)
Theorem signup_then_login (u p h : string) (w : world) :
  registered (SText u) (users w) = false ->
  generate_password_hash (VStr p) = Ok h ->
  check_password_hash h (VStr p) = Ok true ->
  write_lock w = None ->
  let req := post (credentials u p) in
  fst (signup req w) = Ok (user_created, 201) /\
  fst (login req (snd (signup req w)))
    = Ok (token_body (create_access_token (VStr u)), 200).
Proof.
  intros Hfresh Hhash Hcheck Hlock req. subst req. unfold credentials.
  set (d := [("username", VStr u); ("password", VStr p)]).
  assert (Hu : dict_get d "username" = VStr u) by reflexivity.
  assert (Hp : dict_get d "password" = VStr p) by reflexivity.
  rewrite signup_dict, Hp, Hhash, Hu, Hlock. cbn [sqlite_bind locked_for].
  rewrite Hfresh. split; [reflexivity|].
  rewrite login_dict, Hp, Hu. cbn [sqlite_bind snd closed users].
  assert (Hs : stored_hash (SText u)
                 (users w ++ [{| email := SText u; password := h |}])
               = Some h).
  { unfold stored_hash, select_password.
    rewrite filter_app, (registered_filter _ _ Hfresh). simpl.
    now rewrite String.eqb_refl. }
  now rewrite Hs, Hcheck.
Qed.

(** C10.  When /signup answers 409 the users table is what it was: the
    identifier was there already, its row keeps the hash it had, and the
    connection left behind holds no row waiting to be committed. *)
Theorem signup_conflict_atomic (req : request) (w : world) :
  status (fst (signup req w)) = Some 409 ->
  users (snd (signup req w)) = users w /\
  (forall k, stored_hash k (users (snd (signup req w)))
             = stored_hash k (users w)) /\
  (exists k, sqlite_bind (username_of req) = Ok k /\
             registered k (users w) = true) /\
  (forall cn, find_conn (next_cid w) (conns (snd (signup req w))) = Some cn ->
              pending cn = []).
Proof.
  destruct (request_cases req) as [[b ->]|[->|[[v [-> Hv]]|[d ->]]]];
    try discriminate.
  - now rewrite signup_not_dict.
  - unfold username_of. cbn [body post]. rewrite signup_dict.
    destruct (generate_password_hash _) as [h|e]; [|discriminate].
    destruct (sqlite_bind _) as [k|e]; [|discriminate].
    destruct (locked_for _ _); [discriminate|].
    destruct (registered k (users w)) eqn:Hreg; [|discriminate].
    intros _. cbn [snd holding users conns].
    repeat split.
    + now exists k.
    + unfold find_conn. simpl. rewrite Nat.eqb_refl.
      intros cn Hcn. injection Hcn as <-. reflexivity.
Qed.

End Signup.

(** C2, counterexample.  A POST to /signup whose body is the JSON [null]
    gets neither 409 nor 201: [data.get] raises.  So does one whose body
    does not parse.  And a signup for a registered identifier sent a second
    time is not answered 409 again: the connection the first answer left
    open holds the write lock, and the second INSERT finds the database
    locked. *)
Lemma signup_post_body_not_object :
  let run r := fst (signup (B := stub_bcrypt) r alice_world) in
  let out := run (post VNone) in
  (out = Raise AttributeError /\
   status out <> Some 409 /\ status out <> Some 201) /\
  run {| method := POST; body := Malformed |} = Raise BadRequest /\
  (run alice_wrong = Ok (user_exists, 409) /\
   fst (signup (B := stub_bcrypt) alice_wrong
          (snd (signup (B := stub_bcrypt) alice_wrong alice_world)))
     = Raise OperationalError).
Proof. simpl. repeat split; discriminate. Qed.

Lemma signup_post_outcome_witness :
  let d := [("username", VStr "alice@example.com");
            ("password", VStr "rabbit")] in
  generate_password_hash (Bcrypt := stub_bcrypt) (dict_get d "password")
    = Ok "$2b$rabbit" /\
  sqlite_bind (dict_get d "username") = Ok (SText "alice@example.com") /\
  write_lock alice_world = None /\
  fst (signup (B := stub_bcrypt) (post (VDict d)) alice_world)
    = Ok (user_exists, 409).
Proof.
  split; [reflexivity|]. split; [reflexivity|]. split; [reflexivity|].
  apply (signup_post_outcome (B := stub_bcrypt)
           [("username", VStr "alice@example.com"); ("password", VStr "rabbit")]
           alice_world (SText "alice@example.com") "$2b$rabbit");
    reflexivity.
Defined.

(** C3, counterexample.  The identifier is fresh and the secret is the
    empty string: the hashing call refuses it, and the signup is not
    answered 201, it raises. *)
Lemma signup_empty_secret_raises :
  let out := fst (signup (B := stub_bcrypt)
                    (post (credentials "bob@example.com" "")) alice_world) in
  registered (SText "bob@example.com") (users alice_world) = false /\
  out = Raise ValueError /\
  status out <> Some 201.
Proof. simpl. repeat split; discriminate. Qed.

Lemma signup_then_login_witness :
  registered (SText "bob@example.com") (users alice_world) = false /\
  generate_password_hash (Bcrypt := stub_bcrypt) (VStr "builder")
    = Ok "$2b$builder" /\
  check_password_hash (Bcrypt := stub_bcrypt) "$2b$builder" (VStr "builder")
    = Ok true /\
  write_lock alice_world = None /\
  fst (signup (B := stub_bcrypt) bob_signup alice_world)
    = Ok (user_created, 201) /\
  fst (login (B := stub_bcrypt) (J := stub_jwt) bob_signup
         (snd (signup (B := stub_bcrypt) bob_signup alice_world)))
    = Ok (token_body "jwt.bob@example.com", 200).
Proof.
  split; [reflexivity|]. split; [reflexivity|]. split; [reflexivity|].
  split; [reflexivity|].
  apply (signup_then_login (B := stub_bcrypt) (J := stub_jwt)
           "bob@example.com" "builder" "$2b$builder" alice_world);
    reflexivity.
Defined.

Lemma signup_conflict_atomic_witness :
  status (fst (signup (B := stub_bcrypt)
                 alice_wrong alice_world)) = Some 409 /\
  users (snd (signup (B := stub_bcrypt)
                alice_wrong alice_world)) = users alice_world.
Proof.
  split; [reflexivity|].
  apply (signup_conflict_atomic (B := stub_bcrypt)
           alice_wrong alice_world).
  reflexivity.
Defined.

(** ** Both routes *)

Section Routes.

Context {B : Bcrypt} {J : Jwt}.

(** C5.  An OPTIONS request on /login or on /signup is answered 200 with
    the body {status: "ok"} and leaves the whole world as it was: the
    users table is unchanged, no connection has been opened (the open
    connections and the next connection number are the same). *)
Theorem options_preflight (b : payload) (w : world) :
  let req := {| method := OPTIONS; body := b |} in
  login req w = (Ok (jsonify [("status", VStr "ok")], 200), w) /\
  signup req w = (Ok (jsonify [("status", VStr "ok")], 200), w) /\
  users (snd (handle Login req w)) = users w /\
  users (snd (handle Signup req w)) = users w /\
  conns (snd (handle Login req w)) = conns w /\
  conns (snd (handle Signup req w)) = conns w /\
  next_cid (snd (handle Login req w)) = next_cid w /\
  next_cid (snd (handle Signup req w)) = next_cid w.
Proof. cbv zeta. repeat split. Qed.

(** C4.  Uniqueness of identifiers is kept by every sequence of requests
    to the two routes, whatever their methods and bodies: if every
    identifier occurs in at most one row before, so it does after. *)
Theorem unique_emails_invariant (calls : list (endpoint * request))
    (w : world) :
  unique_emails (users w) -> unique_emails (users (serve calls w)).
Proof.
  revert w. induction calls as [|[ep req] calls IH]; intros w Hu.
  - exact Hu.
  - simpl. apply IH. now apply handle_unique.
Qed.

(** C7 (as amended).  For every POST to /login or /signup whose failure
    is not one of the two handled ones (the body does not parse, the body
    is not a JSON object, the hashing or verification call raises, sqlite3
    refuses the username as a parameter, or the database is locked), the
    handler does not handle the failure: the error leaves the handler and
    no response, hence neither 401 nor 409, is produced.  (A missing field
    is no failure of its own: it is read as [None].) *)
Theorem generic_failures_propagate (ep : endpoint) (req : request)
    (w : world) (e : exn) :
  method req = POST ->
  generic_failure w ep req e ->
  fst (handle ep req w) = Raise e /\
  status (fst (handle ep req w)) = None /\
  status (fst (handle ep req w)) <> Some 401 /\
  status (fst (handle ep req w)) <> Some 409.
Proof.
  intros Hm Hf.
  assert (Hr : fst (handle ep req w) = Raise e).
  { destruct Hf as [ep req e Hj | ep req v e Hj Hg | req d e Hj Hh
                   | req d h e Hj Hh Hb | req d h k Hj Hh Hb Hl
                   | req d e Hj Hb
                   | req d k h e Hj Hb Hs Hc];
      destruct req as [m b]; simpl in Hm; subst m;
      unfold get_json in Hj; simpl in Hj;
      destruct b as [|v']; try discriminate; injection Hj as Hj; subst.
    - destruct ep; reflexivity.
    - assert (Hv : forall d, v <> VDict d)
        by (intros d ->; discriminate).
      assert (He : e = AttributeError)
        by (destruct v; simpl in Hg; congruence).
      subst e. fold (post v).
      destruct ep; simpl; [rewrite login_not_dict|rewrite signup_not_dict];
        auto.
    - fold (post (VDict d)). simpl. now rewrite signup_dict, Hh.
    - fold (post (VDict d)). simpl. now rewrite signup_dict, Hh, Hb.
    - fold (post (VDict d)). simpl. now rewrite signup_dict, Hh, Hb, Hl.
    - fold (post (VDict d)). simpl. now rewrite login_dict, Hb.
    - fold (post (VDict d)). simpl. now rewrite login_dict, Hb, Hs, Hc. }
  rewrite Hr. repeat split; discriminate.
Qed.

End Routes.

Lemma unique_emails_invariant_witness :
  let calls := [(Signup, bob_signup); (Signup, bob_signup);
                (Login, alice_wrong); (Signup, alice_wrong);
                (Login, {| method := OPTIONS; body := Malformed |})] in
  unique_emails (users alice_world) /\
  unique_emails
    (users (serve (B := stub_bcrypt) (J := stub_jwt) calls alice_world)).
Proof.
  refine ((fun H => conj H
             (unique_emails_invariant (B := stub_bcrypt) (J := stub_jwt)
                _ alice_world H)) _).
  intros k. cbn [alice_world users filter email].
  destruct (sql_eq (SText "alice@example.com") k); simpl; lia.
Defined.

(** C7, counterexample.  A POST to /login whose body is the object {} has
    neither a username nor a password; nothing propagates: the handler
    answers 401, whether the table is empty or not. *)
Lemma login_missing_fields_unauthorized :
  let run w := fst (login (B := stub_bcrypt) (J := stub_jwt)
                      (post (VDict [])) w) in
  run alice_world = Ok (invalid_credentials, 401) /\
  run empty_world = Ok (invalid_credentials, 401) /\
  status (run alice_world) = Some 401 /\
  forall e, run alice_world <> Raise e.
Proof. simpl. repeat split. discriminate. Qed.

(** [alice_world_locked] is the world a conflicting signup leaves. *)
Lemma conflict_leaves_lock :
  snd (signup (B := stub_bcrypt) alice_wrong alice_world) = alice_world_locked.
Proof. reflexivity. Qed.

Lemma generic_failures_propagate_witness :
  method alice_wrong = POST /\
  generic_failure (B := stub_bcrypt) alice_world_locked Signup alice_wrong
    OperationalError /\
  fst (handle (B := stub_bcrypt) (J := stub_jwt) Signup alice_wrong
         alice_world_locked)
    = Raise OperationalError.
Proof.
  split; [reflexivity|].
  refine ((fun H => conj H
             (proj1 (generic_failures_propagate (B := stub_bcrypt)
                       (J := stub_jwt) Signup alice_wrong
                       alice_world_locked OperationalError eq_refl H))) _).
  apply gf_locked
    with (d := [("username", VStr "alice@example.com");
                ("password", VStr "rabbit")])
         (h := "$2b$rabbit") (k := SText "alice@example.com");
    reflexivity.
Defined.

(** C8, at the failing input.  A POST to /signup for an identifier that is
    registered already is answered 409 from the [except] branch, and the
    connection opened in the [try] block is still open when the handler
    returns. *)
Lemma signup_conflict_connection_left_open :
  let run := signup (B := stub_bcrypt) alice_wrong alice_world in
  fst run = Ok (user_exists, 409) /\
  conns (snd run) = [{| cid := 0; pending := [] |}] /\
  is_open (next_cid alice_world) (snd run) = true.
Proof. simpl. repeat split. Qed.

(** ** Further properties of the handlers *)

Lemma drop_conn_above (n : nat) (cs : list connection) :
  (forall cn, In cn cs -> cid cn < n) -> drop_conn n cs = cs.
Proof.
  unfold drop_conn. induction cs as [|x cs IH]; intros H; [reflexivity|].
  simpl. assert (Hx : cid x < n) by (apply H; now left).
  destruct (Nat.eqb_spec (cid x) n) as [E|_]; [lia|].
  simpl. f_equal. apply IH. intros cn Hcn. apply H. now right.
Qed.

Lemma closed_fresh (t : table) (w : world) :
  fresh_ids w -> conns (closed t w) = conns w.
Proof. intros H. unfold closed. simpl. now apply drop_conn_above. Qed.

Lemma drop_conn_incl (n : nat) (cs : list connection) (cn : connection) :
  In cn (drop_conn n cs) -> In cn cs.
Proof. unfold drop_conn. intros H. now apply filter_In in H. Qed.

Lemma stored_hash_null (t : table) : stored_hash SNull t = None.
Proof.
  apply stored_hash_registered. unfold registered.
  induction t as [|r t IH]; [reflexivity|].
  simpl. rewrite IH. now destruct (email r).
Qed.

Lemma stored_hash_app (k : sqlval) (t t' : table) (h : string) :
  stored_hash k t = Some h -> stored_hash k (t ++ t') = Some h.
Proof.
  unfold stored_hash, select_password.
  induction t as [|r t IH]; simpl; [discriminate|].
  destruct (sql_eq (email r) k); simpl; [trivial|exact IH].
Qed.

Lemma registered_stored (k : sqlval) (t : table) :
  registered k t = true -> exists h, stored_hash k t = Some h.
Proof.
  intros H. destruct (stored_hash k t) as [h|] eqn:E; [now exists h|].
  apply stored_hash_registered in E. congruence.
Qed.

Section Further.

Context {B : Bcrypt} {J : Jwt}.

(** The world a handler leaves is the one it found, that world with the
    handler's connection open (holding the write lock or not), or that
    world with the connection closed again and, for a 201, one row more. *)
Lemma handle_world (ep : endpoint) (req : request) (w : world) :
  let out := handle ep req w in
  (snd out = w /\ created (fst out) = false) \/
  (snd out = opened w /\ created (fst out) = false) \/
  (snd out = holding w /\ created (fst out) = false) \/
  (snd out = closed (users w) w /\ created (fst out) = false) \/
  (exists k h, registered k (users w) = false /\
               snd out = closed (users w ++ [{| email := k; password := h |}]) w /\
               fst out = Ok (user_created, 201)).
Proof.
  destruct (request_cases req) as [[b ->]|[->|[[v [-> Hv]]|[d ->]]]];
    destruct ep; cbn [handle].
  - now left.
  - now left.
  - now left.
  - now left.
  - rewrite login_not_dict by exact Hv. now left.
  - rewrite signup_not_dict by exact Hv. now left.
  - rewrite login_dict.
    destruct (sqlite_bind _) as [k|e]; [|now right; left].
    destruct (stored_hash _ _) as [h|]; [|now right; right; right; left].
    destruct (check_password_hash _ _) as [[|]|e];
      now right; right; right; left.
  - rewrite signup_dict.
    destruct (generate_password_hash _) as [h|e]; [|now left].
    destruct (sqlite_bind _) as [k|e]; [|now right; left].
    destruct (locked_for _ _); [now right; left|].
    destruct (registered k (users w)) eqn:E; [now right; right; left|].
    right; right; right; right. now exists k, h.
Qed.

Lemma handle_users (ep : endpoint) (req : request) (w : world) :
  exists t, users (snd (handle ep req w)) = users w ++ t /\
            length t = if created (fst (handle ep req w)) then 1 else 0.
Proof.
  destruct (handle_world ep req w)
    as [[-> ->]|[[-> ->]|[[-> ->]|[[-> ->]|(k & h & _ & -> & ->)]]]].
  - exists []. now rewrite app_nil_r.
  - exists []. simpl. now rewrite app_nil_r.
  - exists []. simpl. now rewrite app_nil_r.
  - exists []. simpl. now rewrite app_nil_r.
  - eexists. split; reflexivity.
Qed.

Lemma handle_fresh (ep : endpoint) (req : request) (w : world) :
  fresh_ids w -> fresh_ids (snd (handle ep req w)).
Proof.
  intros Hw.
  destruct (handle_world ep req w)
    as [[-> _]|[[-> _]|[[-> _]|[[-> _]|(k & h & _ & -> & _)]]]]; trivial;
    intros cn Hcn; simpl in *.
  - destruct Hcn as [<-|Hcn]; simpl; [lia|]. specialize (Hw cn Hcn). lia.
  - destruct Hcn as [<-|Hcn]; simpl; [lia|]. specialize (Hw cn Hcn). lia.
  - apply drop_conn_incl in Hcn. specialize (Hw cn Hcn). lia.
  - apply drop_conn_incl in Hcn. specialize (Hw cn Hcn). lia.
Qed.

Lemma handle_committed (ep : endpoint) (req : request) (w : world) :
  all_committed w -> all_committed (snd (handle ep req w)).
Proof.
  intros Hw.
  destruct (handle_world ep req w)
    as [[-> _]|[[-> _]|[[-> _]|[[-> _]|(k & h & _ & -> & _)]]]]; trivial;
    intros cn Hcn; simpl in *.
  - destruct Hcn as [<-|Hcn]; [reflexivity|]. now apply Hw.
  - destruct Hcn as [<-|Hcn]; [reflexivity|]. now apply Hw.
  - apply drop_conn_incl in Hcn. now apply Hw.
  - apply drop_conn_incl in Hcn. now apply Hw.
Qed.

Lemma serve_users (calls : list (endpoint * request)) (w : world) :
  exists t, users (serve calls w) = users w ++ t.
Proof.
  revert w. induction calls as [|[ep req] calls IH]; intros w; simpl.
  - exists []. now rewrite app_nil_r.
  - destruct (IH (snd (handle ep req w))) as [t ->].
    destruct (handle_users ep req w) as (t0 & -> & _).
    exists (t0 ++ t). now rewrite app_assoc.
Qed.

End Further.

Section Extras.

Context {B : Bcrypt} {J : Jwt}.

(** X1.  /login and its connection.  Whenever the handler returns a
    response the open connections are those it found: the one it opened
    is closed again.  The connection is left open exactly when
    [cursor.execute] raises because sqlite3 refuses the username, the
    error leaving the handler before [conn.close()]; no other connection
    is ever touched. *)
Theorem login_connections (req : request) (w : world) :
  fresh_ids w ->
  let run := login req w in
  (forall r, fst run = Ok r -> conns (snd run) = conns w) /\
  (conns (snd run) = conns w \/ conns (snd run) = own_conn w :: conns w) /\
  (conns (snd run) = own_conn w :: conns w <->
   exists d e, req = post (VDict d) /\
               sqlite_bind (dict_get d "username") = Raise e /\
               fst run = Raise e).
Proof.
  intros Hw run. subst run.
  assert (Hne : conns w <> own_conn w :: conns w).
  { intros E. apply (f_equal (@length _)) in E. simpl in E. lia. }
  assert (Hkeep : forall (o : result response) (w' : world),
             conns w' = conns w ->
             (forall d e, req = post (VDict d) ->
                sqlite_bind (dict_get d "username") = Raise e -> False) ->
             (forall r, o = Ok r -> conns w' = conns w) /\
             (conns w' = conns w \/ conns w' = own_conn w :: conns w) /\
             (conns w' = own_conn w :: conns w <->
              exists d e, req = post (VDict d) /\
                          sqlite_bind (dict_get d "username") = Raise e /\
                          o = Raise e)).
  { intros o w' Hc Hnot. rewrite Hc. split; [trivial|]. split; [now left|].
    split.
    - intros E. now destruct Hne.
    - intros (d & e & Hd & Hb & _). now destruct (Hnot d e). }
  destruct (request_cases req) as [[b ->]|[->|[[v [-> Hv]]|[d ->]]]].
  - apply Hkeep; [reflexivity|]. intros d e Hd. discriminate Hd.
  - apply Hkeep; [reflexivity|]. intros d e Hd. discriminate Hd.
  - rewrite login_not_dict by exact Hv.
    apply Hkeep; [reflexivity|].
    intros d e Hd. injection Hd as ->. now destruct (Hv d).
  - rewrite login_dict.
    destruct (sqlite_bind (dict_get d "username")) as [k|e] eqn:Hb.
    + assert (Hnot : forall d0 e, post (VDict d) = post (VDict d0) ->
                sqlite_bind (dict_get d0 "username") = Raise e -> False).
      { intros d0 e Hd. injection Hd as <-. congruence. }
      destruct (stored_hash k (users w)) as [h|];
        [|apply Hkeep; [now apply closed_fresh|exact Hnot]].
      destruct (check_password_hash h _) as [[|]|e];
        (apply Hkeep; [now apply closed_fresh|exact Hnot]).
    + cbn [fst snd opened sqlite3_connect conns]. fold (own_conn w).
      split; [discriminate|]. split; [now right|].
      split; [|reflexivity]. intros _. now exists d, e.
Qed.

(** X2.  /signup and its connection.  A 201 answer leaves the open
    connections as they were; a 409 answer, and an error of sqlite3 on the
    username, leave the handler's connection open, since [conn.close()]
    stands only at the end of the [try] block.  No other connection is
    ever touched. *)
Theorem signup_connections (req : request) (w : world) :
  fresh_ids w ->
  let run := signup req w in
  (status (fst run) = Some 201 -> conns (snd run) = conns w) /\
  (status (fst run) = Some 409 -> conns (snd run) = own_conn w :: conns w) /\
  (forall d h e, req = post (VDict d) ->
     generate_password_hash (dict_get d "password") = Ok h ->
     sqlite_bind (dict_get d "username") = Raise e ->
     fst run = Raise e /\ conns (snd run) = own_conn w :: conns w) /\
  (conns (snd run) = conns w \/ conns (snd run) = own_conn w :: conns w).
Proof.
  intros Hw run. subst run.
  assert (Hkeep : forall (o : result response) (w' : world),
             conns w' = conns w -> status o <> Some 409 ->
             (forall d h e, req = post (VDict d) ->
                generate_password_hash (dict_get d "password") = Ok h ->
                sqlite_bind (dict_get d "username") = Raise e -> False) ->
             (status o = Some 201 -> conns w' = conns w) /\
             (status o = Some 409 -> conns w' = own_conn w :: conns w) /\
             (forall d h e, req = post (VDict d) ->
                generate_password_hash (dict_get d "password") = Ok h ->
                sqlite_bind (dict_get d "username") = Raise e ->
                o = Raise e /\ conns w' = own_conn w :: conns w) /\
             (conns w' = conns w \/ conns w' = own_conn w :: conns w)).
  { intros o w' Hc Hs Hnot. split; [trivial|]. split; [intros E; now destruct Hs|].
    split; [|now left]. intros d h e Hd Hh Hb. now destruct (Hnot d h e). }
  destruct (request_cases req) as [[b ->]|[->|[[v [-> Hv]]|[d ->]]]].
  - apply Hkeep; [reflexivity|discriminate|]. intros d h e Hd. discriminate Hd.
  - apply Hkeep; [reflexivity|discriminate|]. intros d h e Hd. discriminate Hd.
  - rewrite signup_not_dict by exact Hv.
    apply Hkeep; [reflexivity|discriminate|].
    intros d h e Hd. injection Hd as ->. now destruct (Hv d).
  - rewrite signup_dict.
    destruct (generate_password_hash (dict_get d "password")) as [h|e] eqn:Hh.
    + destruct (sqlite_bind (dict_get d "username")) as [k|e] eqn:Hb.
      * destruct (locked_for _ _); [|destruct (registered k (users w))].
        -- cbn [fst snd opened sqlite3_connect conns status].
           fold (own_conn w).
           split; [discriminate|]. split; [discriminate|].
           split; [|now right].
           intros d0 h0 e Hd. injection Hd as <-. congruence.
        -- cbn [fst snd holding conns status].
           fold (own_conn w).
           split; [discriminate|]. split; [reflexivity|].
           split; [|now right].
           intros d0 h0 e Hd. injection Hd as <-. congruence.
        -- apply Hkeep; [now apply closed_fresh|discriminate|].
           intros d0 h0 e Hd. injection Hd as <-. congruence.
      * cbn [fst snd opened sqlite3_connect conns status].
        fold (own_conn w).
        split; [discriminate|]. split; [discriminate|].
        split; [|now right].
        intros d0 h0 e0 Hd Hh0 Hb0. injection Hd as <-.
        split; [congruence|reflexivity].
    + apply Hkeep; [reflexivity|discriminate|].
      intros d0 h0 e0 Hd. injection Hd as <-. congruence.
Qed.


(** X4.  Rows are only ever appended, one for each 201 answer: after any
    sequence of requests the users table is the old table followed by as
    many new rows as there were 201 answers; no row is changed, moved or
    removed. *)
Theorem rows_only_appended (calls : list (endpoint * request)) (w : world) :
  exists t,
    users (serve calls w) = users w ++ t /\
    length t = length (filter created (answers calls w)).
Proof.
  revert w. induction calls as [|[ep req] calls IH]; intros w.
  - exists []. simpl. now rewrite app_nil_r.
  - cbn [serve answers filter].
    destruct (IH (snd (handle ep req w))) as (t & -> & Hl).
    destruct (handle_users ep req w) as (t0 & -> & Hl0).
    exists (t0 ++ t). rewrite app_assoc. split; [reflexivity|].
    rewrite length_app, Hl, Hl0.
    now destruct (created (fst (handle ep req w))).
Qed.

(** X5.  Registered credentials are stable.  Once an identifier has a row,
    no sequence of requests to the two routes changes the hash stored for
    it, and a login for that identifier is answered after the sequence as
    it would have been before. *)
Theorem registered_login_stable (calls : list (endpoint * request))
    (d : list (string * value)) (w : world) (k : sqlval) :
  sqlite_bind (dict_get d "username") = Ok k ->
  registered k (users w) = true ->
  stored_hash k (users (serve calls w)) = stored_hash k (users w) /\
  fst (login (post (VDict d)) (serve calls w)) = fst (login (post (VDict d)) w).
Proof.
  intros Hb Hr.
  destruct (registered_stored _ _ Hr) as [h Hh].
  destruct (serve_users calls w) as [t Ht].
  assert (Hs : stored_hash k (users (serve calls w)) = stored_hash k (users w)).
  { rewrite Ht, Hh. now apply stored_hash_app. }
  split; [exact Hs|].
  rewrite !login_dict, Hb, Hs.
  destruct (stored_hash k (users w)); [|reflexivity].
  destruct (check_password_hash _ _) as [[|]|e]; reflexivity.
Qed.

(** X6.  The answers of the two routes.  /login answers 200 with the
    preflight body (to OPTIONS only), 200 with a token body, or 401 with
    the one "Invalid credentials" body; /signup answers 200 with the
    preflight body (to OPTIONS only), 201 or 409.  In particular the 401
    does not tell an unknown identifier from a wrong secret. *)
Theorem response_shapes (ep : endpoint) (req : request) (w : world)
    (r : response) :
  fst (handle ep req w) = Ok r ->
  match ep with
  | Login =>
      (method req = OPTIONS /\ r = (ok_body, 200)) \/
      (method req = POST /\
       r = (token_body (create_access_token (username_of req)), 200)) \/
      (method req = POST /\ r = (invalid_credentials, 401))
  | Signup =>
      (method req = OPTIONS /\ r = (ok_body, 200)) \/
      (method req = POST /\ r = (user_created, 201)) \/
      (method req = POST /\ r = (user_exists, 409))
  end.
Proof.
  destruct (request_cases req) as [[b ->]|[->|[[v [-> Hv]]|[d ->]]]];
    destruct ep; cbn [handle].
  - intros H. injection H as <-. now left.
  - intros H. injection H as <-. now left.
  - discriminate.
  - discriminate.
  - now rewrite login_not_dict.
  - now rewrite signup_not_dict.
  - rewrite login_dict. unfold username_of. cbn [body post method].
    destruct (sqlite_bind _) as [k|e]; [|discriminate].
    destruct (stored_hash _ _) as [h|];
      [|intros H; injection H as <-; now right; right].
    destruct (check_password_hash _ _) as [[|]|e]; try discriminate;
      intros H; injection H as <-; [now right; left|now right; right].
  - rewrite signup_dict. cbn [method post].
    destruct (generate_password_hash _) as [h|e]; [|discriminate].
    destruct (sqlite_bind _) as [k|e]; [|discriminate].
    destruct (locked_for _ _); [discriminate|].
    destruct (registered k (users w)); intros H; injection H as <-;
      [now right; right|now right; left].
Qed.

(** X7.  A login without a username is always refused.  When the body is
    an object whose username is missing or null, /login answers 401
    whatever the password field, the users table and the hashing library:
    [email = NULL] selects no row, so the verification is not reached. *)
Theorem login_without_username (d : list (string * value)) (w : world) :
  dict_get d "username" = VNone ->
  login (post (VDict d)) w
    = (Ok (invalid_credentials, 401), closed (users w) w).
Proof.
  intros Hu. rewrite login_dict, Hu. cbn [sqlite_bind].
  now rewrite stored_hash_null.
Qed.


(** X9.  Nothing stays uncommitted.  If no open connection holds a pending
    row, then after any sequence of requests none does: /signup commits
    the row it inserts before it lets go of the connection, and the
    connections that stay open (see X1, X2) hold nothing. *)
Theorem nothing_left_pending (calls : list (endpoint * request)) (w : world) :
  all_committed w -> all_committed (serve calls w).
Proof.
  revert w. induction calls as [|[ep req] calls IH]; intros w Hw.
  - exact Hw.
  - simpl. apply IH. now apply handle_committed.
Qed.

(** X10.  A wrong secret after a signup is refused.  For an identifier no
    row had, signed up with one secret, a login with another secret that
    the hashing library does not verify against the stored hash is
    answered 401. *)
Theorem signup_then_wrong_secret (u p p' h : string) (w : world) :
  registered (SText u) (users w) = false ->
  generate_password_hash (VStr p) = Ok h ->
  check_password_hash h (VStr p') = Ok false ->
  fst (login (post (credentials u p'))
         (snd (signup (post (credentials u p)) w)))
    = Ok (invalid_credentials, 401).
Proof.
  intros Hfresh Hhash Hcheck. unfold credentials.
  set (d := [("username", VStr u); ("password", VStr p)]).
  set (d' := [("username", VStr u); ("password", VStr p')]).
  assert (Hu : dict_get d "username" = VStr u) by reflexivity.
  assert (Hp : dict_get d "password" = VStr p) by reflexivity.
  assert (Hu' : dict_get d' "username" = VStr u) by reflexivity.
  assert (Hp' : dict_get d' "password" = VStr p') by reflexivity.
  rewrite signup_dict, Hp, Hhash, Hu. cbn [sqlite_bind]. rewrite Hfresh.
  destruct (locked_for _ _).
  - rewrite login_dict, Hu'. cbn [sqlite_bind snd opened sqlite3_connect users].
    apply stored_hash_registered in Hfresh. now rewrite Hfresh.
  - rewrite login_dict, Hp', Hu'. cbn [sqlite_bind snd closed users].
    assert (Hs : stored_hash (SText u)
                   (users w ++ [{| email := SText u; password := h |}])
                 = Some h).
    { unfold stored_hash, select_password.
      rewrite filter_app, (registered_filter _ _ Hfresh). simpl.
      now rewrite String.eqb_refl. }
    now rewrite Hs, Hcheck.
Qed.

(** X11.  A signup concerns its own identifier only.  Whatever /signup
    does with a request for one identifier, a login for a different
    identifier is answered after it as it would have been before. *)
Theorem signup_frames_other_identifiers (ds dl : list (string * value))
    (w : world) (k k' : sqlval) :
  sqlite_bind (dict_get ds "username") = Ok k ->
  sqlite_bind (dict_get dl "username") = Ok k' ->
  k <> k' ->
  let w' := snd (signup (post (VDict ds)) w) in
  stored_hash k' (users w') = stored_hash k' (users w) /\
  fst (login (post (VDict dl)) w') = fst (login (post (VDict dl)) w).
Proof.
  intros Hb Hb' Hk w'. subst w'.
  assert (Hs : stored_hash k' (users (snd (signup (post (VDict ds)) w)))
               = stored_hash k' (users w)).
  { rewrite signup_dict, Hb.
    destruct (generate_password_hash _) as [h|e]; [|reflexivity].
    destruct (locked_for _ _); [reflexivity|].
    destruct (registered k (users w)); [reflexivity|].
    cbn [snd closed users]. unfold stored_hash, select_password.
    rewrite filter_app. cbn [filter email].
    destruct (sql_eq k k') eqn:E.
    - apply sql_eq_true in E. contradiction.
    - now rewrite app_nil_r. }
  split; [exact Hs|].
  rewrite !login_dict, Hb', Hs.
  destruct (stored_hash k' (users w)); [|reflexivity].
  destruct (check_password_hash _ _) as [[|]|e]; reflexivity.
Qed.

(** X12.  From signup to identity.  For an identifier no row had, no
    connection holding the write lock, the hashing library verifying its
    own hash and the token library returning the identity it was given:
    after the signup, the login with the same credentials issues a token
    from which [get_current_user_email] reads the identifier signed up. *)
Theorem signup_login_identity (u p h : string) (w : world) :
  registered (SText u) (users w) = false ->
  write_lock w = None ->
  generate_password_hash (VStr p) = Ok h ->
  check_password_hash h (VStr p) = Ok true ->
  get_jwt_identity (create_access_token (VStr u)) = Some (VStr u) ->
  let req := post (credentials u p) in
  exists token,
    access_token (fst (login req (snd (signup req w)))) = Some token /\
    get_current_user_email token = Some (VStr u).
Proof.
  intros Hfresh Hlock Hhash Hcheck Hjwt req. subst req. unfold credentials.
  set (d := [("username", VStr u); ("password", VStr p)]).
  assert (Hu : dict_get d "username" = VStr u) by reflexivity.
  assert (Hp : dict_get d "password" = VStr p) by reflexivity.
  rewrite signup_dict, Hp, Hhash, Hu, Hlock. cbn [sqlite_bind locked_for].
  rewrite Hfresh.
  rewrite login_dict, Hp, Hu. cbn [sqlite_bind snd closed users].
  assert (Hs : stored_hash (SText u)
                 (users w ++ [{| email := SText u; password := h |}])
               = Some h).
  { unfold stored_hash, select_password.
    rewrite filter_app, (registered_filter _ _ Hfresh). simpl.
    now rewrite String.eqb_refl. }
  rewrite Hs, Hcheck.
  exists (create_access_token (VStr u)). split; [reflexivity|exact Hjwt].
Qed.


End Extras.

(** ** Instances of the further properties *)

Lemma login_connections_witness :
  fresh_ids alice_world_leaked /\
  conns (snd (login (B := stub_bcrypt) (J := stub_jwt)
                alice_wrong alice_world_leaked))
    = conns alice_world_leaked.
Proof.
  refine ((fun H => conj H
             (proj1 (login_connections (B := stub_bcrypt) (J := stub_jwt)
                       alice_wrong alice_world_leaked H)
                    (invalid_credentials, 401) eq_refl)) _).
  intros cn [<-|[]]. simpl. lia.
Defined.

Lemma signup_connections_witness :
  fresh_ids alice_world_leaked /\
  conns (snd (signup (B := stub_bcrypt) alice_wrong alice_world_leaked))
    = own_conn alice_world_leaked :: conns alice_world_leaked.
Proof.
  refine ((fun H => conj H
             (proj1 (proj2 (signup_connections (B := stub_bcrypt)
                              alice_wrong alice_world_leaked H))
                    eq_refl)) _).
  intros cn [<-|[]]. simpl. lia.
Defined.


Lemma registered_login_stable_witness :
  let calls := [(Signup, alice_wrong); (Signup, bob_signup);
                (Login, bob_signup)] in
  registered (SText "alice@example.com") (users alice_world) = true /\
  fst (login (B := stub_bcrypt) (J := stub_jwt) alice_login
         (serve (B := stub_bcrypt) (J := stub_jwt) calls alice_world))
    = fst (login (B := stub_bcrypt) (J := stub_jwt) alice_login alice_world).
Proof.
  split; [reflexivity|].
  apply (registered_login_stable (B := stub_bcrypt) (J := stub_jwt)
           [(Signup, alice_wrong); (Signup, bob_signup); (Login, bob_signup)]
           [("username", VStr "alice@example.com");
            ("password", VStr "wonderland")]
           alice_world (SText "alice@example.com"));
    reflexivity.
Defined.

Lemma response_shapes_witness :
  fst (handle (B := stub_bcrypt) (J := stub_jwt) Login alice_wrong alice_world)
    = Ok (invalid_credentials, 401) /\
  ((method alice_wrong = OPTIONS /\
    (invalid_credentials, 401) = (ok_body, 200)) \/
   (method alice_wrong = POST /\
    (invalid_credentials, 401)
      = (token_body (create_access_token (Jwt := stub_jwt)
                       (username_of alice_wrong)), 200)) \/
   (method alice_wrong = POST /\
    (invalid_credentials, 401) = (invalid_credentials, 401))).
Proof.
  split; [reflexivity|].
  apply (response_shapes (B := stub_bcrypt) (J := stub_jwt)
           Login alice_wrong alice_world (invalid_credentials, 401)).
  reflexivity.
Defined.

Lemma login_without_username_witness :
  dict_get [("password", VStr "wonderland")] "username" = VNone /\
  fst (login (B := stub_bcrypt) (J := stub_jwt)
         (post (VDict [("password", VStr "wonderland")])) alice_world)
    = Ok (invalid_credentials, 401).
Proof.
  split; [reflexivity|].
  exact (f_equal fst
           (login_without_username (B := stub_bcrypt) (J := stub_jwt)
              [("password", VStr "wonderland")] alice_world eq_refl)).
Defined.


Lemma nothing_left_pending_witness :
  let calls := [(Signup, bob_signup); (Signup, bob_signup);
                (Login, alice_wrong)] in
  all_committed alice_world_leaked /\
  all_committed
    (serve (B := stub_bcrypt) (J := stub_jwt) calls alice_world_leaked).
Proof.
  refine ((fun H => conj H
             (nothing_left_pending (B := stub_bcrypt) (J := stub_jwt)
                _ alice_world_leaked H)) _).
  intros cn [<-|[]]. reflexivity.
Defined.

Lemma signup_then_wrong_secret_witness :
  registered (SText "bob@example.com") (users alice_world) = false /\
  check_password_hash (Bcrypt := stub_bcrypt) "$2b$builder" (VStr "wrecker")
    = Ok false /\
  fst (login (B := stub_bcrypt) (J := stub_jwt)
         (post (credentials "bob@example.com" "wrecker"))
         (snd (signup (B := stub_bcrypt) bob_signup alice_world)))
    = Ok (invalid_credentials, 401).
Proof.
  split; [reflexivity|]. split; [reflexivity|].
  apply (signup_then_wrong_secret (B := stub_bcrypt) (J := stub_jwt)
           "bob@example.com" "builder" "wrecker" "$2b$builder" alice_world);
    reflexivity.
Defined.

Lemma signup_frames_other_identifiers_witness :
  SText "bob@example.com" <> SText "alice@example.com" /\
  fst (login (B := stub_bcrypt) (J := stub_jwt) alice_login
         (snd (signup (B := stub_bcrypt) bob_signup alice_world)))
    = fst (login (B := stub_bcrypt) (J := stub_jwt) alice_login alice_world).
Proof.
  refine ((fun H => conj H
             (proj2 (signup_frames_other_identifiers (B := stub_bcrypt)
                       (J := stub_jwt)
                       [("username", VStr "bob@example.com");
                        ("password", VStr "builder")]
                       [("username", VStr "alice@example.com");
                        ("password", VStr "wonderland")]
                       alice_world (SText "bob@example.com")
                       (SText "alice@example.com") eq_refl eq_refl H))) _).
  discriminate.
Defined.

Lemma signup_login_identity_witness :
  registered (SText "bob@example.com") (users alice_world) = false /\
  write_lock alice_world = None /\
  get_jwt_identity (Jwt := stub_jwt)
    (create_access_token (Jwt := stub_jwt) (VStr "bob@example.com"))
    = Some (VStr "bob@example.com") /\
  exists token,
    access_token
      (fst (login (B := stub_bcrypt) (J := stub_jwt) bob_signup
              (snd (signup (B := stub_bcrypt) bob_signup alice_world))))
      = Some token /\
    get_current_user_email (J := stub_jwt) token
      = Some (VStr "bob@example.com").
Proof.
  split; [reflexivity|]. split; [reflexivity|]. split; [reflexivity|].
  apply (signup_login_identity (B := stub_bcrypt) (J := stub_jwt)
           "bob@example.com" "builder" "$2b$builder" alice_world);
    reflexivity.
Defined.

